(** * DockerConfig: per-node configuration of the local test network

    A shallow embedding of
    [integration-testing/casperlabs_local_net/docker_config.py]:
    the [DockerConfig] dataclass, its generated constructor, its
    [__post_init__] hook and the derivations [tls_certificate_path],
    [tls_key_path], [tls_certificate_local_path] and
    [node_command_options].

    Python dictionaries are finite maps ([gmap string string]).  The
    dictionaries that the code shares by reference (the module constant
    [DEFAULT_NODE_ENV], a dictionary handed in by the caller) live in a
    store of dictionary objects, and a [DockerConfig] holds a reference
    into that store, as the Python object does. *)

From Stdlib Require Import ZArith String Ascii DecimalString DecimalPos DecimalZ.
From stdpp Require Import base option gmap strings fin_maps.

Local Open Scope string_scope.
Local Open Scope Z_scope.

(** ** Values *)

(** A Python [dict] from [str] to [str]. *)
Abbreviation pydict := (gmap string string).

(** A reference to a dictionary object. *)
Abbreviation ref := nat.

(** The store of dictionary objects. *)
Abbreviation store := (gmap nat (gmap string string)).

(** Opaque collaborators: the docker client, the network and the account
    are only held, never inspected. *)
Inductive DockerClient : Type := DockerClientHandle (id : nat).
Inductive Network : Type := NetworkHandle (id : nat).
Inductive Account : Type := AccountHandle (id : nat).

(** [str(n)] for a Python [int]. *)
Definition str_int (n : Z) : string := NilZero.string_of_int (Z.to_int n).

(** Truth value of an [Optional[str]]: [None] and the empty string are
    false, every other string is true. *)
Definition truthy (o : option string) : bool :=
  match o with
  | None => false
  | Some EmptyString => false
  | Some (String _ _) => true
  end.

(** [needle in hay] on strings. *)
Fixpoint contains (needle hay : string) : bool :=
  String.prefix needle hay ||
  match hay with
  | EmptyString => false
  | String _ rest => contains needle rest
  end.

(** ** The dataclass *)

Record DockerConfig : Type := mkDockerConfig {
  docker_client : DockerClient;
  node_private_key : string;
  node_public_key : option string;
  node_env : option ref;
  network : option Network;
  number : Z;
  rand_str : option string;
  command_timeout : Z;
  mem_limit : string;
  is_bootstrap : bool;
  is_validator : bool;
  is_signed_deploy : bool;
  bootstrap_address : option string;
  initial_motes : Z;
  socket_volume : option string;
  node_account : option Account;
  grpc_encryption : bool;
  is_read_only : bool
}.

Section Derivations.

(** [BOOTSTRAP_PATH] is imported from [casperlabs_local_net.common]; the
    derivations are stated for any value of it. *)
Variable BOOTSTRAP_PATH : string.

Definition tls_certificate_path (self : DockerConfig) : string :=
  BOOTSTRAP_PATH ++ "/node-" ++ str_int (number self) ++ ".certificate.pem".

Definition tls_key_path (self : DockerConfig) : string :=
  BOOTSTRAP_PATH ++ "/node-" ++ str_int (number self) ++ ".key.pem".

Definition base_options (self : DockerConfig) (server_host : string) : pydict :=
  <["--tls-api-key" := tls_key_path self]>
  (<["--tls-api-certificate" := tls_certificate_path self]>
  (<["--tls-key" := tls_key_path self]>
  (<["--tls-certificate" := tls_certificate_path self]>
  (<["--metrics-prometheus" := EmptyString]>
  (<["--grpc-socket" := "/root/.casperlabs/sockets/.casper-node.sock"]>
  (<["--server-host" := server_host]>
  (<["--server-default-timeout" := "10second"]> ∅))))))).

Definition node_command_options (self : DockerConfig) (server_host : string)
  : pydict :=
  let options := base_options self server_host in
  let options :=
    if negb (is_read_only self)
    then <["--casper-validator-private-key" := node_private_key self]> options
    else options in
  let options :=
    if grpc_encryption self
    then <["--grpc-use-tls" := EmptyString]> options
    else options in
  let options :=
    match bootstrap_address self with
    | Some a => if truthy (Some a) then <["--server-bootstrap" := a]> options
                else options
    | None => options
    end in
  let options :=
    match node_public_key self with
    | Some k => if truthy (Some k)
                then <["--casper-validator-public-key" := k]> options
                else options
    | None => options
    end in
  options.

End Derivations.

(** ** The store and the module constant *)

(** The dictionary behind a reference.  A reference held by a live object
    always points at a dictionary; a reference outside the store reads as
    the empty dictionary. *)
Definition deref (st : store) (l : ref) : pydict := st !!! l.

(** [d[k] = v] on the dictionary object behind [l]: the object is updated
    in place, so every holder of [l] sees the new entry. *)
Definition dict_setitem (l : ref) (k v : string) (st : store) : store :=
  <[l := <[k := v]> (deref st l)]> st.

(** [del d[k]] on the dictionary object behind [l]. *)
Definition dict_delitem (l : ref) (k : string) (st : store) : store :=
  <[l := delete k (deref st l)]> st.

(** The caller builds a dictionary of its own: a new object in the store. *)
Definition dict_new (d : pydict) (st : store) : ref * store :=
  let l := fresh (dom st) in (l, <[l := d]> st).

(** The module-level name [DEFAULT_NODE_ENV] is bound once, at import, to
    one dictionary object. *)
Definition DEFAULT_NODE_ENV : ref := 0%nat.

(** The dictionary display that [DEFAULT_NODE_ENV] is bound to; [environ]
    is [os.environ] at import time. *)
Definition DEFAULT_NODE_ENV_display (environ : pydict) : pydict :=
  <["CL_VERSION" := "test"]>
  (<["CL_SERVER_NO_UPNP" := "true"]>
  (<["CL_LOG_LEVEL" := default "INFO" (environ !! "CL_LOG_LEVEL")]>
  (<["RUST_BACKTRACE" := "full"]> ∅))).

(** The store right after the module is imported. *)
Definition import_module (environ : pydict) : store :=
  {[ DEFAULT_NODE_ENV := DEFAULT_NODE_ENV_display environ ]}.

(** ** Construction *)

(** What a construction reads from outside: [os.environ] at that moment
    and the outcome of [random_string]. *)
Record ambient : Type := mkAmbient {
  environ : pydict;
  random_string : nat -> string
}.

Inductive exn : Type :=
| TypeError_missing (names : list string)
| TypeError_item_assignment.

(** The keyword arguments of a call [DockerConfig(...)]: [None] is an
    argument the caller left out.  For a field whose own value may be
    [None] the inner option is the value passed. *)
Record InitArgs : Type := mkInitArgs {
  arg_docker_client : option DockerClient;
  arg_node_private_key : option string;
  arg_node_public_key : option (option string);
  arg_node_env : option (option ref);
  arg_network : option (option Network);
  arg_number : option Z;
  arg_rand_str : option (option string);
  arg_command_timeout : option Z;
  arg_mem_limit : option string;
  arg_is_bootstrap : option bool;
  arg_is_validator : option bool;
  arg_is_signed_deploy : option bool;
  arg_bootstrap_address : option (option string);
  arg_initial_motes : option Z;
  arg_socket_volume : option (option string);
  arg_node_account : option (option Account);
  arg_grpc_encryption : option bool;
  arg_is_read_only : option bool
}.

(** A call that passes the two required arguments and nothing else. *)
Definition required_only (client : DockerClient) (key : string) : InitArgs :=
  mkInitArgs (Some client) (Some key) None None None None None None None
    None None None None None None None None None.

Definition set_rand_str (v : option string) (self : DockerConfig)
  : DockerConfig :=
  mkDockerConfig (docker_client self) (node_private_key self)
    (node_public_key self) (node_env self) (network self) (number self)
    v (command_timeout self) (mem_limit self) (is_bootstrap self)
    (is_validator self) (is_signed_deploy self) (bootstrap_address self)
    (initial_motes self) (socket_volume self) (node_account self)
    (grpc_encryption self) (is_read_only self).

Definition set_node_env (v : option ref) (self : DockerConfig)
  : DockerConfig :=
  mkDockerConfig (docker_client self) (node_private_key self)
    (node_public_key self) v (network self) (number self)
    (rand_str self) (command_timeout self) (mem_limit self)
    (is_bootstrap self) (is_validator self) (is_signed_deploy self)
    (bootstrap_address self) (initial_motes self) (socket_volume self)
    (node_account self) (grpc_encryption self) (is_read_only self).

(** The field assignments of the generated [__init__]: the two fields
    without a default are required, every other field takes its declared
    default when left out.  No value is inspected. *)
Definition bind_fields (a : InitArgs) : exn + DockerConfig :=
  match arg_docker_client a, arg_node_private_key a with
  | Some client, Some key =>
      inr (mkDockerConfig client key
             (default None (arg_node_public_key a))
             (default None (arg_node_env a))
             (default None (arg_network a))
             (default 0 (arg_number a))
             (default None (arg_rand_str a))
             (default 180 (arg_command_timeout a))
             (default "4G" (arg_mem_limit a))
             (default false (arg_is_bootstrap a))
             (default true (arg_is_validator a))
             (default true (arg_is_signed_deploy a))
             (default None (arg_bootstrap_address a))
             (default (100 * 10 ^ 9) (arg_initial_motes a))
             (default None (arg_socket_volume a))
             (default None (arg_node_account a))
             (default false (arg_grpc_encryption a))
             (default false (arg_is_read_only a)))
  | None, Some _ => inl (TypeError_missing ["docker_client"])
  | Some _, None => inl (TypeError_missing ["node_private_key"])
  | None, None => inl (TypeError_missing ["docker_client"; "node_private_key"])
  end.

Definition __post_init__ (amb : ambient) (self : DockerConfig) (st : store)
  : exn + DockerConfig * store :=
  let self :=
    match rand_str self with
    | None => set_rand_str (Some (random_string amb 5)) self
    | Some _ => self
    end in
  let self :=
    match node_env self with
    | None => set_node_env (Some DEFAULT_NODE_ENV) self
    | Some _ => self
    end in
  let java_options := environ amb !! "_JAVA_OPTIONS" in
  match java_options with
  | Some v =>
      match node_env self with
      | Some l => inr (self, dict_setitem l "_JAVA_OPTIONS" v st)
      | None => inl TypeError_item_assignment
      end
  | None => inr (self, st)
  end.

(** The call [DockerConfig(...)]. *)
Definition __init__ (amb : ambient) (a : InitArgs) (st : store)
  : exn + DockerConfig * store :=
  match bind_fields a with
  | inl e => inl e
  | inr self => __post_init__ amb self st
  end.

(** [self.node_env], read through the store. *)
Definition environment (self : DockerConfig) (st : store) : pydict :=
  match node_env self with
  | Some l => deref st l
  | None => ∅
  end.

(** [self.node_env[k] = v] and [del self.node_env[k]], done by whoever
    holds the instance. *)
Definition node_env_setitem (self : DockerConfig) (k v : string) (st : store)
  : store :=
  match node_env self with
  | Some l => dict_setitem l k v st
  | None => st
  end.

Definition node_env_delitem (self : DockerConfig) (k : string) (st : store)
  : store :=
  match node_env self with
  | Some l => dict_delitem l k st
  | None => st
  end.

(** ** Concrete calls used in the examples below *)

(** The value of [BOOTSTRAP_PATH] used where an example needs one. *)
Definition example_bootstrap_path : string := "/root/.casperlabs/bootstrap".

Definition example_client : DockerClient := DockerClientHandle 1.

(** [os.environ] without [_JAVA_OPTIONS]. *)
Definition amb_plain : ambient := mkAmbient ∅ (fun _ => "qwert").

(** [os.environ] with [_JAVA_OPTIONS] set. *)
Definition amb_java : ambient :=
  mkAmbient {[ "_JAVA_OPTIONS" := "-Xmx512m" ]} (fun _ => "asdfg").

(** [DockerConfig(client, "PRIVKEY", number=3, is_read_only=False,
    grpc_encryption=True, bootstrap_address="10.0.0.5:40400",
    node_public_key="PUBKEY")]. *)
Definition scenario_args : InitArgs :=
  mkInitArgs (Some example_client) (Some "PRIVKEY") (Some (Some "PUBKEY"))
    None None (Some 3) None None None None None None
    (Some (Some "10.0.0.5:40400")) None None None (Some true) (Some false).

(** [DockerConfig(client, "PRIVKEY", bootstrap_address=str())]: the
    bootstrap address is the empty string. *)
Definition empty_bootstrap_args : InitArgs :=
  mkInitArgs (Some example_client) (Some "PRIVKEY") None
    None None None None None None None None None
    (Some (Some EmptyString)) None None None None None.

(** [DockerConfig(client, "PRIVKEY", number=-1)]. *)
Definition negative_number_args : InitArgs :=
  mkInitArgs (Some example_client) (Some "PRIVKEY") None
    None None (Some (-1)) None None None None None None
    None None None None None None.

(** [DockerConfig(client, "PRIVKEY", node_env=d)] for a dictionary object
    [d] of the caller's. *)
Definition own_env_args (d : ref) : InitArgs :=
  mkInitArgs (Some example_client) (Some "PRIVKEY") None
    (Some (Some d)) None None None None None None None None
    None None None None None None.

(** The caller's own empty dictionary [{}], created after import. *)
Definition own_empty_env : ref * store := dict_new ∅ (import_module ∅).

(** ** Predicates of the statements *)

(** The four keys of the [DEFAULT_NODE_ENV] display. *)
Definition has_baseline_keys (d : pydict) : Prop :=
  is_Some (d !! "RUST_BACKTRACE") ∧ is_Some (d !! "CL_LOG_LEVEL") ∧
  is_Some (d !! "CL_SERVER_NO_UPNP") ∧ is_Some (d !! "CL_VERSION").

(** Two instances that agree on every field but [is_validator]. *)
Definition differ_only_in_is_validator (c1 c2 : DockerConfig) : Prop :=
  docker_client c1 = docker_client c2 ∧
  node_private_key c1 = node_private_key c2 ∧
  node_public_key c1 = node_public_key c2 ∧
  node_env c1 = node_env c2 ∧
  network c1 = network c2 ∧
  number c1 = number c2 ∧
  rand_str c1 = rand_str c2 ∧
  command_timeout c1 = command_timeout c2 ∧
  mem_limit c1 = mem_limit c2 ∧
  is_bootstrap c1 = is_bootstrap c2 ∧
  is_signed_deploy c1 = is_signed_deploy c2 ∧
  bootstrap_address c1 = bootstrap_address c2 ∧
  initial_motes c1 = initial_motes c2 ∧
  socket_volume c1 = socket_volume c2 ∧
  node_account c1 = node_account c2 ∧
  grpc_encryption c1 = grpc_encryption c2 ∧
  is_read_only c1 = is_read_only c2.

(** The stores the program can be in as long as dictionaries are only
    created and instances only constructed: the store at import, and from
    such a store the one after the caller has built a dictionary of its
    own or after a call [DockerConfig(...)] has returned. *)
Inductive reachable : store → Prop :=
| reachable_import (env0 : pydict) :
    reachable (import_module env0)
| reachable_dict_new (st : store) (d : pydict) :
    reachable st → reachable (snd (dict_new d st))
| reachable_init (st : store) (amb : ambient) (a : InitArgs)
    (cfg : DockerConfig) (st' : store) :
    reachable st → __init__ amb a st = inr (cfg, st') → reachable st'.

(** The fields that [bind_fields] gives a call with only the two required
    arguments, after [__post_init__] has filled [rand_str] and
    [node_env]. *)
Definition default_instance (amb : ambient) (client : DockerClient)
  (key : string) : DockerConfig :=
  mkDockerConfig client key None (Some DEFAULT_NODE_ENV) None 0
    (Some (random_string amb 5)) 180 "4G" false true true None
    (100 * 10 ^ 9) None None false false.

(** The instance and the store as [__post_init__] leaves them, in closed
    form; [post_init_eq] below proves that [__post_init__] computes them. *)
Definition post_init_instance (amb : ambient) (self : DockerConfig)
  : DockerConfig :=
  set_node_env (Some (default DEFAULT_NODE_ENV (node_env self)))
    (set_rand_str (Some (default (random_string amb 5) (rand_str self))) self).

Definition post_init_store (amb : ambient) (self : DockerConfig) (st : store)
  : store :=
  match environ amb !! "_JAVA_OPTIONS" with
  | Some v =>
      dict_setitem (default DEFAULT_NODE_ENV (node_env self)) "_JAVA_OPTIONS" v st
  | None => st
  end.

(** The instance that [__init__] returns for [scenario_args]. *)
Definition scenario_instance (amb : ambient) : DockerConfig :=
  mkDockerConfig example_client "PRIVKEY" (Some "PUBKEY")
    (Some DEFAULT_NODE_ENV) None 3 (Some (random_string amb 5)) 180 "4G"
    false true true (Some "10.0.0.5:40400") (100 * 10 ^ 9) None None
    true false.

(** Case analysis on the fields that [node_command_options] branches on:
    the public key, the bootstrap address and the two flags. *)
Ltac options_cases c :=
  destruct c as [? ? [[|? ?]|] ? ? ? ? ? ? ? ? ? [[|? ?]|] ? ? ? [|] [|]].

(** ** The certificate on the host *)

(** A [pathlib.Path] as the sequence of its parts; [p / name] for a
    [name] that is one relative part (no separator in it) appends that
    part. *)
Abbreviation Path := (list string).

Definition path_div (p : Path) (name : string) : Path := (p ++ [name])%list.

Section LocalPath.

(** [testing_root_path] is imported from [casperlabs_local_net.common]:
    what a call of it gives, a path or an exception of some type [E], is
    taken as given. *)
Variable E : Type.
Variable testing_root_path : E + Path.

Definition tls_certificate_local_path (self : DockerConfig) : E + Path :=
  match testing_root_path with
  | inl e => inl e
  | inr root_path =>
      inr (path_div
             (path_div (path_div root_path "resources") "bootstrap_certificate")
             ("node-" ++ str_int (number self) ++ ".certificate.pem"))
  end.

End LocalPath.

(** ** Further predicates *)

(** The flags that [node_command_options] can produce. *)
Definition known_flags : list string :=
  ["--server-default-timeout"; "--server-host"; "--grpc-socket";
   "--metrics-prometheus"; "--tls-certificate"; "--tls-key";
   "--tls-api-certificate"; "--tls-api-key";
   "--casper-validator-private-key"; "--grpc-use-tls"; "--server-bootstrap";
   "--casper-validator-public-key"].

(** Two instances that agree on the six fields [node_command_options]
    reads. *)
Definition same_option_fields (c1 c2 : DockerConfig) : Prop :=
  number c1 = number c2 ∧
  node_private_key c1 = node_private_key c2 ∧
  node_public_key c1 = node_public_key c2 ∧
  bootstrap_address c1 = bootstrap_address c2 ∧
  grpc_encryption c1 = grpc_encryption c2 ∧
  is_read_only c1 = is_read_only c2.

(** [DockerConfig(client, "PRIVKEY", node_env=d, rand_str=str())] for a
    dictionary object [d] of the caller's. *)
Definition own_env_empty_suffix_args (d : ref) : InitArgs :=
  mkInitArgs (Some example_client) (Some "PRIVKEY") None
    (Some (Some d)) None None (Some (Some EmptyString)) None None None None
    None None None None None None None.

(** A dictionary of the caller's that already has a [_JAVA_OPTIONS]
    entry, created after import. *)
Definition own_java_env : ref * store :=
  dict_new (<["_JAVA_OPTIONS" := "-Xms1g"]> {[ "HOME" := "/root" ]})
    (import_module ∅).

(** [os.environ] at a construction where [CL_LOG_LEVEL] is set, and
    [_JAVA_OPTIONS] is not. *)
Definition amb_debug : ambient :=
  mkAmbient {[ "CL_LOG_LEVEL" := "DEBUG" ]} (fun _ => "zxcvb").

(** Two instances that agree on every field [node_command_options] reads
    but [is_read_only]: the first is read-only, the second is not. *)
Definition read_only_twin (c1 c2 : DockerConfig) : Prop :=
  number c1 = number c2 ∧
  node_public_key c1 = node_public_key c2 ∧
  bootstrap_address c1 = bootstrap_address c2 ∧
  grpc_encryption c1 = grpc_encryption c2 ∧
  is_read_only c1 = true ∧ is_read_only c2 = false.

(** [scenario_instance] made read-only. *)
Definition scenario_instance_read_only (amb : ambient) : DockerConfig :=
  mkDockerConfig example_client "PRIVKEY" (Some "PUBKEY")
    (Some DEFAULT_NODE_ENV) None 3 (Some (random_string amb 5)) 180 "4G"
    false true true (Some "10.0.0.5:40400") (100 * 10 ^ 9) None None
    true true.

(** An instance unlike [scenario_instance] in every field that
    [node_command_options] does not read. *)
Definition scenario_instance_elsewhere : DockerConfig :=
  mkDockerConfig (DockerClientHandle 9) "PRIVKEY" (Some "PUBKEY")
    (Some 7%nat) (Some (NetworkHandle 2)) 3 None 60 "1G"
    true false false (Some "10.0.0.5:40400") 5 (Some "/tmp/sock")
    (Some (AccountHandle 3)) true false.

(** Membership of a literal flag in [known_flags]. *)
Ltac known_flag :=
  apply elem_of_list_to_set, list_elem_of_In; unfold known_flags;
  repeat first [left; reflexivity | right].

(** * Properties *)

(** ** Strings *)

Lemma prefix_app (n s : string) : String.prefix n (n ++ s) = true.
Proof.
  induction n as [|a n IH]; simpl; [by destruct s|].
  destruct (ascii_dec a a); [exact IH | congruence].
Qed.

Lemma contains_unfold (n h : string) :
  contains n h =
  String.prefix n h ||
  match h with EmptyString => false | String _ rest => contains n rest end.
Proof. by destruct h. Qed.

Lemma contains_prefix (n s : string) : contains n (n ++ s) = true.
Proof. by rewrite contains_unfold, prefix_app. Qed.

Lemma contains_app (n p s : string) : contains n (p ++ n ++ s) = true.
Proof.
  induction p as [|a p IH].
  - change (EmptyString ++ n ++ s) with (n ++ s). apply contains_prefix.
  - change (String a p ++ n ++ s) with (String a (p ++ n ++ s)).
    rewrite contains_unfold, IH. apply orb_true_r.
Qed.

Lemma append_assoc (a b c : string) : (a ++ b) ++ c = a ++ b ++ c.
Proof.
  induction a as [|x a IH]; [done|].
  change (String x (a ++ b) ++ c = String x (a ++ b ++ c)).
  change (String x ((a ++ b) ++ c) = String x (a ++ b ++ c)).
  by rewrite IH.
Qed.

(** A path [base/node-N suffix] names the node by its number. *)
Lemma node_path_contains (bp k suffix : string) :
  contains ("node-" ++ k) (bp ++ "/node-" ++ k ++ suffix) = true.
Proof.
  change ("/node-" ++ k ++ suffix) with ("/" ++ "node-" ++ k ++ suffix).
  rewrite <- (append_assoc "node-" k suffix).
  rewrite <- (append_assoc bp "/").
  apply contains_app.
Qed.

Lemma tls_paths_contain_node bp (c : DockerConfig) :
  contains ("node-" ++ str_int (number c)) (tls_certificate_path bp c) = true ∧
  contains ("node-" ++ str_int (number c)) (tls_key_path bp c) = true.
Proof. split; apply node_path_contains. Qed.

(** ** Construction *)

Lemma post_init_eq amb self st :
  __post_init__ amb self st =
  inr (post_init_instance amb self, post_init_store amb self st).
Proof.
  unfold __post_init__, post_init_instance, post_init_store.
  destruct self as [? ? ? [l|] ? ? [r|] ? ? ? ? ? ? ? ? ? ? ?]; simpl;
    destruct (environ amb !! "_JAVA_OPTIONS"); reflexivity.
Qed.

Lemma init_eq amb a st :
  __init__ amb a st =
  match bind_fields a with
  | inl e => inl e
  | inr self => inr (post_init_instance amb self, post_init_store amb self st)
  end.
Proof. unfold __init__. destruct (bind_fields a); [done|apply post_init_eq]. Qed.

Lemma init_required_only amb client key st :
  __init__ amb (required_only client key) st =
  inr (default_instance amb client key,
       post_init_store amb (default_instance amb client key) st).
Proof. rewrite init_eq. reflexivity. Qed.

(** ** The command options *)

(** C1 (amended): a node constructed from the two required arguments
    alone has exactly nine command options, for every host: the request
    timeout, the server host, the gRPC socket path, the metrics marker,
    the two certificate flags, the two key flags and the validator
    private-key flag; the gRPC-TLS flag, the bootstrap flag and the
    public-key flag are absent. *)
Theorem default_node_command_options bp amb client key st host :
  ∃ cfg st',
    __init__ amb (required_only client key) st = inr (cfg, st') ∧
    node_command_options bp cfg host =
      list_to_map
        [("--server-default-timeout", "10second");
         ("--server-host", host);
         ("--grpc-socket", "/root/.casperlabs/sockets/.casper-node.sock");
         ("--metrics-prometheus", EmptyString);
         ("--tls-certificate", bp ++ "/node-0.certificate.pem");
         ("--tls-key", bp ++ "/node-0.key.pem");
         ("--tls-api-certificate", bp ++ "/node-0.certificate.pem");
         ("--tls-api-key", bp ++ "/node-0.key.pem");
         ("--casper-validator-private-key", key)] ∧
    size (node_command_options bp cfg host) = 9%nat ∧
    node_command_options bp cfg host !! "--grpc-use-tls" = None ∧
    node_command_options bp cfg host !! "--server-bootstrap" = None ∧
    node_command_options bp cfg host !! "--casper-validator-public-key" = None.
Proof.
  eexists _, _. split; [apply init_required_only|].
  repeat split; vm_compute; reflexivity.
Qed.

(** C1 as stated fails: the options of a default-constructed node are not
    eight entries. *)
Lemma default_node_command_options_not_8 :
  ¬ (∀ cfg st',
       __init__ amb_plain (required_only example_client "PRIVKEY")
         (import_module ∅) = inr (cfg, st') →
       size (node_command_options example_bootstrap_path cfg "127.0.0.1")
       = 8%nat).
Proof.
  intros H.
  specialize (H _ _ (init_required_only _ _ _ _)).
  vm_compute in H. discriminate H.
Qed.

Lemma init_scenario amb st :
  __init__ amb scenario_args st =
  inr (scenario_instance amb, post_init_store amb (scenario_instance amb) st).
Proof. rewrite init_eq. reflexivity. Qed.

(** C2 (amended): for the instance constructed with number 3, not
    read-only, gRPC encryption on, bootstrap address "10.0.0.5:40400" and
    public key "PUBKEY", the options for host "10.0.0.9" are the nine
    entries of a default node plus the encryption marker, the bootstrap
    address and the public key: twelve entries, with the server host
    mapped to "10.0.0.9" and every TLS path containing "node-3". *)
Theorem scenario_node_command_options bp amb st :
  ∃ cfg st',
    __init__ amb scenario_args st = inr (cfg, st') ∧
    node_command_options bp cfg "10.0.0.9" =
      list_to_map
        [("--server-default-timeout", "10second");
         ("--server-host", "10.0.0.9");
         ("--grpc-socket", "/root/.casperlabs/sockets/.casper-node.sock");
         ("--metrics-prometheus", EmptyString);
         ("--tls-certificate", bp ++ "/node-3.certificate.pem");
         ("--tls-key", bp ++ "/node-3.key.pem");
         ("--tls-api-certificate", bp ++ "/node-3.certificate.pem");
         ("--tls-api-key", bp ++ "/node-3.key.pem");
         ("--casper-validator-private-key", "PRIVKEY");
         ("--grpc-use-tls", EmptyString);
         ("--server-bootstrap", "10.0.0.5:40400");
         ("--casper-validator-public-key", "PUBKEY")] ∧
    size (node_command_options bp cfg "10.0.0.9") = 12%nat ∧
    node_command_options bp cfg "10.0.0.9" !! "--server-host"
      = Some "10.0.0.9" ∧
    node_command_options bp cfg "10.0.0.9" !! "--tls-certificate"
      = Some (tls_certificate_path bp cfg) ∧
    node_command_options bp cfg "10.0.0.9" !! "--tls-api-certificate"
      = Some (tls_certificate_path bp cfg) ∧
    contains "node-3" (tls_certificate_path bp cfg) = true ∧
    contains "node-3" (tls_key_path bp cfg) = true.
Proof.
  eexists _, _. split; [apply init_scenario|].
  split; [vm_compute; reflexivity|].
  split; [vm_compute; reflexivity|].
  split; [vm_compute; reflexivity|].
  split; [vm_compute; reflexivity|].
  split; [vm_compute; reflexivity|].
  apply (tls_paths_contain_node bp (scenario_instance amb)).
Qed.

(** C2 as stated fails: the scenario's options are not eleven entries. *)
Lemma scenario_node_command_options_not_11 :
  ¬ (∀ cfg st',
       __init__ amb_plain scenario_args (import_module ∅) = inr (cfg, st') →
       size (node_command_options example_bootstrap_path cfg "10.0.0.9")
       = 11%nat).
Proof.
  intros H.
  specialize (H _ _ (init_scenario _ _)).
  vm_compute in H. discriminate H.
Qed.

Lemma lookup_private_key_flag bp (c : DockerConfig) host :
  node_command_options bp c host !! "--casper-validator-private-key" =
  if is_read_only c then None else Some (node_private_key c).
Proof. options_cases c; vm_compute; reflexivity. Qed.

(** C3: the validator private-key flag is absent whenever the node is
    read-only and otherwise present with the node's private key, whatever
    the other fields and the host are. *)
Theorem private_key_flag_iff_not_read_only bp (c : DockerConfig) host :
  node_command_options bp c host !! "--casper-validator-private-key" =
  if is_read_only c then None else Some (node_private_key c).
Proof. exact (lookup_private_key_flag bp c host). Qed.

(** C4 (amended): the gRPC-TLS marker is present, with an empty value,
    exactly when [grpc_encryption] is true; the bootstrap flag is present,
    mapped to the bootstrap address, exactly when that address is a
    non-empty string; the public-key flag is present, mapped to the public
    key, exactly when that key is a non-empty string.  An address or a key
    that is [None] or the empty string gives no flag. *)
Theorem optional_flags bp (c : DockerConfig) host :
  node_command_options bp c host !! "--grpc-use-tls" =
    (if grpc_encryption c then Some EmptyString else None) ∧
  node_command_options bp c host !! "--server-bootstrap" =
    match bootstrap_address c with
    | Some (String x a) => Some (String x a)
    | Some EmptyString | None => None
    end ∧
  node_command_options bp c host !! "--casper-validator-public-key" =
    match node_public_key c with
    | Some (String x k) => Some (String x k)
    | Some EmptyString | None => None
    end.
Proof. options_cases c; repeat split; vm_compute; reflexivity. Qed.

(** C4 as stated fails: a bootstrap address that is set to the empty
    string gives no bootstrap flag. *)
Lemma empty_bootstrap_address_no_flag :
  ¬ (∀ cfg st',
       __init__ amb_plain empty_bootstrap_args (import_module ∅)
         = inr (cfg, st') →
       ∀ v, bootstrap_address cfg = Some v →
            node_command_options example_bootstrap_path cfg "10.0.0.9"
              !! "--server-bootstrap" = Some v).
Proof.
  intros H.
  specialize (H _ _ (init_eq _ _ _) EmptyString eq_refl).
  vm_compute in H. discriminate H.
Qed.

(** C9: the certificate path and the key path depend on the node number
    alone: two instances with the same number have the same paths,
    whatever their other fields are. *)
Theorem tls_paths_depend_on_number_only bp (c1 c2 : DockerConfig) :
  number c1 = number c2 →
  tls_certificate_path bp c1 = tls_certificate_path bp c2 ∧
  tls_key_path bp c1 = tls_key_path bp c2.
Proof.
  intros E. unfold tls_certificate_path, tls_key_path. by rewrite E.
Qed.

Lemma tls_paths_depend_on_number_only_witness :
  number (default_instance amb_plain example_client "K1") =
    number (mkDockerConfig (DockerClientHandle 7) "K2" (Some "PUB")
              (Some 4%nat) (Some (NetworkHandle 2)) 0 (Some "zzzzz") 60 "1G"
              true false false (Some "10.0.0.5:40400") 5 (Some "/tmp/sock")
              (Some (AccountHandle 3)) true true) ∧
  tls_certificate_path example_bootstrap_path
    (default_instance amb_plain example_client "K1") =
  tls_certificate_path example_bootstrap_path
    (mkDockerConfig (DockerClientHandle 7) "K2" (Some "PUB")
       (Some 4%nat) (Some (NetworkHandle 2)) 0 (Some "zzzzz") 60 "1G"
       true false false (Some "10.0.0.5:40400") 5 (Some "/tmp/sock")
       (Some (AccountHandle 3)) true true) ∧
  tls_key_path example_bootstrap_path
    (default_instance amb_plain example_client "K1") =
  tls_key_path example_bootstrap_path
    (mkDockerConfig (DockerClientHandle 7) "K2" (Some "PUB")
       (Some 4%nat) (Some (NetworkHandle 2)) 0 (Some "zzzzz") 60 "1G"
       true false false (Some "10.0.0.5:40400") 5 (Some "/tmp/sock")
       (Some (AccountHandle 3)) true true).
Proof.
  split; [reflexivity|].
  apply (tls_paths_depend_on_number_only example_bootstrap_path
           (default_instance amb_plain example_client "K1")
           (mkDockerConfig (DockerClientHandle 7) "K2" (Some "PUB")
              (Some 4%nat) (Some (NetworkHandle 2)) 0 (Some "zzzzz") 60 "1G"
              true false false (Some "10.0.0.5:40400") 5 (Some "/tmp/sock")
              (Some (AccountHandle 3)) true true)).
  reflexivity.
Defined.

(** C10: the options do not depend on [is_validator]: two instances that
    differ in that field alone have the same options for every host, and
    the validator private-key flag of either is decided by [is_read_only]
    alone. *)
Theorem options_ignore_is_validator bp (c1 c2 : DockerConfig) host :
  differ_only_in_is_validator c1 c2 →
  node_command_options bp c1 host = node_command_options bp c2 host ∧
  node_command_options bp c1 host !! "--casper-validator-private-key" =
    (if is_read_only c1 then None else Some (node_private_key c1)) ∧
  node_command_options bp c2 host !! "--casper-validator-private-key" =
    (if is_read_only c1 then None else Some (node_private_key c1)).
Proof.
  intros (_ & Hk & Hp & _ & _ & Hn & _ & _ & _ & _ & _ & Hb & _ & _ & _ & Hg & Hr).
  assert (node_command_options bp c1 host = node_command_options bp c2 host)
    as E.
  { unfold node_command_options, base_options, tls_certificate_path,
      tls_key_path. by rewrite Hk, Hp, Hn, Hb, Hg, Hr. }
  split; [exact E|]. rewrite <- E.
  split; apply lookup_private_key_flag.
Qed.

Lemma options_ignore_is_validator_witness :
  differ_only_in_is_validator
    (scenario_instance amb_plain)
    (mkDockerConfig example_client "PRIVKEY" (Some "PUBKEY")
       (Some DEFAULT_NODE_ENV) None 3 (Some "qwert") 180 "4G"
       false false true (Some "10.0.0.5:40400") (100 * 10 ^ 9) None None
       true false) ∧
  node_command_options example_bootstrap_path (scenario_instance amb_plain)
    "10.0.0.9" =
  node_command_options example_bootstrap_path
    (mkDockerConfig example_client "PRIVKEY" (Some "PUBKEY")
       (Some DEFAULT_NODE_ENV) None 3 (Some "qwert") 180 "4G"
       false false true (Some "10.0.0.5:40400") (100 * 10 ^ 9) None None
       true false) "10.0.0.9".
Proof.
  assert (differ_only_in_is_validator
    (scenario_instance amb_plain)
    (mkDockerConfig example_client "PRIVKEY" (Some "PUBKEY")
       (Some DEFAULT_NODE_ENV) None 3 (Some "qwert") 180 "4G"
       false false true (Some "10.0.0.5:40400") (100 * 10 ^ 9) None None
       true false)) as D.
  { repeat split. }
  split; [exact D|].
  exact (proj1 (options_ignore_is_validator example_bootstrap_path _ _
                  "10.0.0.9" D)).
Defined.

(** ** The environment *)

Lemma deref_setitem_eq l k v st :
  deref (dict_setitem l k v st) l = <[k := v]> (deref st l).
Proof. unfold dict_setitem, deref. by rewrite lookup_total_insert_eq. Qed.

Lemma deref_setitem_ne l l' k v st :
  l ≠ l' → deref (dict_setitem l k v st) l' = deref st l'.
Proof. intros. unfold dict_setitem, deref. by rewrite lookup_total_insert_ne. Qed.

(** An item assignment never removes a key, whichever dictionary it is
    made on. *)
Lemma setitem_keeps_key l l' k k' v st :
  is_Some (deref st l' !! k') →
  is_Some (deref (dict_setitem l k v st) l' !! k').
Proof.
  intros H. destruct (decide (l = l')) as [->|Hne].
  - rewrite deref_setitem_eq. rewrite lookup_insert_is_Some. 
    destruct (decide (k = k')); auto.
  - by rewrite deref_setitem_ne.
Qed.

Lemma post_init_store_keeps_key amb self st l k :
  is_Some (deref st l !! k) →
  is_Some (deref (post_init_store amb self st) l !! k).
Proof.
  intros H. unfold post_init_store.
  destruct (environ amb !! "_JAVA_OPTIONS"); [|done].
  by apply setitem_keeps_key.
Qed.

Lemma post_init_store_keeps_baseline amb self st l :
  has_baseline_keys (deref st l) →
  has_baseline_keys (deref (post_init_store amb self st) l).
Proof.
  intros (H1 & H2 & H3 & H4).
  repeat split; by apply post_init_store_keeps_key.
Qed.

(** The baseline keys are there at import. *)
Lemma import_has_baseline_keys env0 :
  has_baseline_keys (deref (import_module env0) DEFAULT_NODE_ENV).
Proof.
  unfold import_module, deref. rewrite lookup_total_singleton_eq.
  unfold DEFAULT_NODE_ENV_display, has_baseline_keys.
  repeat split; by simplify_map_eq.
Qed.

(** Every construction keeps them in [DEFAULT_NODE_ENV]. *)
Lemma init_keeps_baseline_keys amb a st cfg st' :
  has_baseline_keys (deref st DEFAULT_NODE_ENV) →
  __init__ amb a st = inr (cfg, st') →
  has_baseline_keys (deref st' DEFAULT_NODE_ENV).
Proof.
  intros Hb. rewrite init_eq. destruct (bind_fields a); [done|].
  intros [= <- <-]. by apply post_init_store_keeps_baseline.
Qed.

(** [DEFAULT_NODE_ENV] stays allocated, so a dictionary of the caller's
    is never created in its place. *)
Lemma reachable_default_allocated st :
  reachable st → DEFAULT_NODE_ENV ∈ dom st.
Proof.
  induction 1 as [env0|st d _ IH|st amb a cfg st' _ IH Hi].
  - unfold import_module. rewrite dom_singleton_L. set_solver.
  - unfold dict_new. simpl. rewrite dom_insert_L. set_solver.
  - rewrite init_eq in Hi. destruct (bind_fields a); [done|].
    injection Hi as _ <-. unfold post_init_store.
    destruct (environ amb !! "_JAVA_OPTIONS"); [|done].
    unfold dict_setitem. rewrite dom_insert_L. set_solver.
Qed.

(** The baseline keys are an invariant of [DEFAULT_NODE_ENV] over the
    reachable stores. *)
Lemma reachable_has_baseline_keys st :
  reachable st → has_baseline_keys (deref st DEFAULT_NODE_ENV).
Proof.
  induction 1 as [env0|st d Hr IH|st amb a cfg st' _ IH Hi].
  - apply import_has_baseline_keys.
  - unfold dict_new, deref. simpl. rewrite lookup_total_insert_ne; [done|].
    intros E. apply (is_fresh (dom st)). rewrite E.
    by apply reachable_default_allocated.
  - by eapply init_keeps_baseline_keys.
Qed.

(** An instance constructed without an environment of the caller's holds
    a reference to [DEFAULT_NODE_ENV] itself. *)
Lemma default_node_env_is_shared amb a st cfg st' :
  default None (arg_node_env a) = None →
  __init__ amb a st = inr (cfg, st') →
  node_env cfg = Some DEFAULT_NODE_ENV.
Proof.
  intros Ha. rewrite init_eq. unfold bind_fields.
  destruct (arg_docker_client a), (arg_node_private_key a); try done.
  intros [= <- _]. simpl. by rewrite Ha.
Qed.

(** The override of the ambient environment, when there is one, is what
    the instance's environment holds after construction. *)
Lemma java_options_merged amb a st cfg st' v :
  environ amb !! "_JAVA_OPTIONS" = Some v →
  __init__ amb a st = inr (cfg, st') →
  environment cfg st' !! "_JAVA_OPTIONS" = Some v.
Proof.
  intros Hv. rewrite init_eq. destruct (bind_fields a) as [|self]; [done|].
  intros [= <- <-]. unfold environment, post_init_store. rewrite Hv. simpl.
  rewrite deref_setitem_eq. by rewrite lookup_insert_eq.
Qed.

(** Without an override the construction leaves the store alone: the
    instance's environment is the dictionary it was given, or the shared
    [DEFAULT_NODE_ENV] in whatever state earlier constructions left it. *)
Lemma java_options_not_merged amb a st cfg st' :
  environ amb !! "_JAVA_OPTIONS" = None →
  __init__ amb a st = inr (cfg, st') →
  st' = st ∧
  environment cfg st' =
    deref st (default DEFAULT_NODE_ENV (default None (arg_node_env a))).
Proof.
  intros Hv. rewrite init_eq. unfold bind_fields.
  destruct (arg_docker_client a), (arg_node_private_key a); try done.
  intros [= <- <-]. unfold environment, post_init_store. rewrite Hv. done.
Qed.

(** C5 (the code at the failing input): a first instance is constructed
    without an environment while [_JAVA_OPTIONS] is set, a second one,
    again without an environment, after [_JAVA_OPTIONS] has been unset.
    The override is not set at the second construction and the caller
    passed no environment, and still the second instance's environment
    maps [_JAVA_OPTIONS] to the value the first construction merged. *)
Theorem java_options_left_by_earlier_instance :
  ∃ a st1 b st2,
    __init__ amb_java (required_only example_client "K1") (import_module ∅)
      = inr (a, st1) ∧
    __init__ amb_plain (required_only example_client "K2") st1
      = inr (b, st2) ∧
    environ amb_plain !! "_JAVA_OPTIONS" = None ∧
    arg_node_env (required_only example_client "K2") = None ∧
    deref (import_module ∅) DEFAULT_NODE_ENV !! "_JAVA_OPTIONS" = None ∧
    environment b st2 !! "_JAVA_OPTIONS" = Some "-Xmx512m".
Proof.
  eexists _, _, _, _.
  split; [apply init_required_only|].
  split; [apply init_required_only|].
  repeat split; vm_compute; reflexivity.
Qed.

(** C6 (the code at the failing input): two instances are constructed
    without an environment.  Both hold the one [DEFAULT_NODE_ENV] object:
    the Java-options merge at the second construction shows in the first
    instance's environment and in [DEFAULT_NODE_ENV], and a key that is
    added, overwritten or removed through the second instance is added,
    overwritten or removed in the first. *)
Theorem default_environment_is_one_object :
  ∃ a st1 b st2,
    __init__ amb_plain (required_only example_client "K1") (import_module ∅)
      = inr (a, st1) ∧
    __init__ amb_java (required_only example_client "K2") st1
      = inr (b, st2) ∧
    node_env a = Some DEFAULT_NODE_ENV ∧
    node_env b = Some DEFAULT_NODE_ENV ∧
    environment a st1 !! "_JAVA_OPTIONS" = None ∧
    environment a st2 !! "_JAVA_OPTIONS" = Some "-Xmx512m" ∧
    deref st2 DEFAULT_NODE_ENV !! "_JAVA_OPTIONS" = Some "-Xmx512m" ∧
    environment a (node_env_setitem b "EXTRA" "1" st2) !! "EXTRA"
      = Some "1" ∧
    environment a st2 !! "CL_LOG_LEVEL" = Some "INFO" ∧
    environment a (node_env_setitem b "CL_LOG_LEVEL" "DEBUG" st2)
      !! "CL_LOG_LEVEL" = Some "DEBUG" ∧
    environment a st2 !! "CL_VERSION" = Some "test" ∧
    environment a (node_env_delitem b "CL_VERSION" st2) !! "CL_VERSION"
      = None ∧
    deref (node_env_delitem b "CL_VERSION" st2) DEFAULT_NODE_ENV
      !! "CL_VERSION" = None.
Proof.
  eexists _, _, _, _.
  split; [apply init_required_only|].
  split; [apply init_required_only|].
  repeat split; vm_compute; reflexivity.
Qed.

(** A construction by itself drops no baseline key: an instance
    constructed without an environment of the caller's has the four
    baseline keys when [DEFAULT_NODE_ENV] has them at that moment. *)
Theorem default_environment_has_baseline_keys amb a st cfg st' :
  has_baseline_keys (deref st DEFAULT_NODE_ENV) →
  default None (arg_node_env a) = None →
  __init__ amb a st = inr (cfg, st') →
  has_baseline_keys (environment cfg st').
Proof.
  intros Hb Ha Hi.
  unfold environment. rewrite (default_node_env_is_shared _ _ _ _ _ Ha Hi).
  by eapply init_keeps_baseline_keys.
Qed.

(** In particular this holds in every run made of imports, dictionaries
    built by the caller and constructions. *)
Corollary reachable_default_environment_has_baseline_keys amb a st cfg st' :
  reachable st →
  default None (arg_node_env a) = None →
  __init__ amb a st = inr (cfg, st') →
  has_baseline_keys (environment cfg st').
Proof.
  intros Hr Ha Hi. unfold environment.
  rewrite (default_node_env_is_shared _ _ _ _ _ Ha Hi).
  apply reachable_has_baseline_keys. by eapply reachable_init.
Qed.

Lemma default_environment_has_baseline_keys_witness :
  has_baseline_keys
    (environment (default_instance amb_java example_client "PRIVKEY")
       (post_init_store amb_java
          (default_instance amb_java example_client "PRIVKEY")
          (import_module ∅))).
Proof.
  apply (default_environment_has_baseline_keys amb_java
           (required_only example_client "PRIVKEY") (import_module ∅)).
  - vm_compute. repeat split; eexists; reflexivity.
  - reflexivity.
  - apply init_required_only.
Defined.

(** An environment of the caller's is used as it is: an instance
    constructed with the caller's own empty dictionary has none of the
    baseline keys. *)
Lemma own_environment_lacks_baseline_keys :
  ¬ (∀ cfg st',
       __init__ amb_plain (own_env_args (fst own_empty_env))
         (snd own_empty_env) = inr (cfg, st') →
       has_baseline_keys (environment cfg st')).
Proof.
  intros H.
  destruct (H _ _ (init_eq _ _ _)) as [[v Hv] _].
  vm_compute in Hv. discriminate Hv.
Qed.

(** C7 (the code at the failing input): a first instance is constructed
    without an environment and has the four baseline keys; its holder
    deletes [CL_VERSION] from its environment; then further instances are
    constructed, again without an environment, one with the Java-options
    override set and one without.  Right after construction neither of
    them has [CL_VERSION]: their environment is the very dictionary the
    key was deleted from, [DEFAULT_NODE_ENV]. *)
Theorem baseline_key_removed_through_earlier_instance :
  ∃ a st1 b st2 b' st2',
    __init__ amb_plain (required_only example_client "K1") (import_module ∅)
      = inr (a, st1) ∧
    has_baseline_keys (environment a st1) ∧
    arg_node_env (required_only example_client "K2") = None ∧
    __init__ amb_java (required_only example_client "K2")
      (node_env_delitem a "CL_VERSION" st1) = inr (b, st2) ∧
    environment b st2 !! "CL_VERSION" = None ∧
    ¬ has_baseline_keys (environment b st2) ∧
    __init__ amb_plain (required_only example_client "K2")
      (node_env_delitem a "CL_VERSION" st1) = inr (b', st2') ∧
    environment b' st2' !! "CL_VERSION" = None ∧
    ¬ has_baseline_keys (environment b' st2').
Proof.
  eexists _, _, _, _, _, _.
  split; [apply init_required_only|].
  split; [vm_compute; repeat split; eexists; reflexivity|].
  split; [reflexivity|].
  split; [apply init_required_only|].
  split; [vm_compute; reflexivity|].
  split; [intros (_ & _ & _ & [v Hv]); vm_compute in Hv; discriminate Hv|].
  split; [apply init_required_only|].
  split; [vm_compute; reflexivity|].
  intros (_ & _ & _ & [v Hv]). vm_compute in Hv. discriminate Hv.
Qed.

(** C8 (amended): a call without the docker client or without the private
    key raises at once and yields no instance; every other call yields an
    instance whose fields are the values passed (or the declared
    defaults), unchecked: a negative number and every combination of the
    role flags are accepted. *)
Theorem init_checks_required_arguments_only amb a st :
  match arg_docker_client a, arg_node_private_key a with
  | Some client, Some key =>
      ∃ cfg st',
        __init__ amb a st = inr (cfg, st') ∧
        docker_client cfg = client ∧
        node_private_key cfg = key ∧
        number cfg = default 0 (arg_number a) ∧
        is_bootstrap cfg = default false (arg_is_bootstrap a) ∧
        is_validator cfg = default true (arg_is_validator a) ∧
        is_signed_deploy cfg = default true (arg_is_signed_deploy a) ∧
        is_read_only cfg = default false (arg_is_read_only a) ∧
        grpc_encryption cfg = default false (arg_grpc_encryption a) ∧
        bootstrap_address cfg = default None (arg_bootstrap_address a) ∧
        node_public_key cfg = default None (arg_node_public_key a)
  | _, _ =>
      ∃ names, names ≠ [] ∧ __init__ amb a st = inl (TypeError_missing names)
  end.
Proof.
  rewrite init_eq. unfold bind_fields.
  destruct (arg_docker_client a), (arg_node_private_key a).
  - eexists _, _. repeat split.
  - eexists. split; [|reflexivity]. discriminate.
  - eexists. split; [|reflexivity]. discriminate.
  - eexists. split; [|reflexivity]. discriminate.
Qed.

(** C8 as stated fails: construction with a negative number succeeds. *)
Lemma negative_number_accepted :
  ¬ (∀ cfg st',
       __init__ amb_plain negative_number_args (import_module ∅)
         = inr (cfg, st') →
       0 ≤ number cfg).
Proof.
  intros H.
  specialize (H _ _ (init_eq _ _ _)).
  vm_compute in H. by apply H.
Qed.

(** * Further properties *)

(** ** The TLS paths *)

Lemma chars_app (a b : string) :
  list_ascii_of_string (a ++ b) =
  (list_ascii_of_string a ++ list_ascii_of_string b)%list.
Proof.
  induction a as [|x a IH]; [done|].
  change (x :: list_ascii_of_string (a ++ b) =
          x :: (list_ascii_of_string a ++ list_ascii_of_string b)%list).
  by rewrite IH.
Qed.

Lemma chars_inj (a b : string) :
  list_ascii_of_string a = list_ascii_of_string b → a = b.
Proof.
  intros H. rewrite <- (string_of_list_ascii_of_string a).
  rewrite <- (string_of_list_ascii_of_string b). by rewrite H.
Qed.

(** A common suffix can be cancelled. *)
Lemma append_inv_tail (a b suffix : string) :
  a ++ suffix = b ++ suffix → a = b.
Proof.
  intros H. apply chars_inj.
  apply (f_equal list_ascii_of_string) in H. rewrite !chars_app in H.
  by apply app_inv_tail in H.
Qed.

Lemma to_int_proper (n : Z) :
  Z.to_int n ≠ Decimal.Pos Decimal.Nil ∧ Z.to_int n ≠ Decimal.Neg Decimal.Nil.
Proof.
  destruct n as [|p|p]; simpl; split; try discriminate;
    intros [= H]; by apply (DecimalPos.Unsigned.to_uint_nonnil p).
Qed.

(** [str] of an [int] can be read back: two numbers with the same
    decimal text are the same number. *)
Lemma str_int_inj (n m : Z) : str_int n = str_int m → n = m.
Proof.
  unfold str_int. intros H.
  destruct (to_int_proper n) as [Hn1 Hn2], (to_int_proper m) as [Hm1 Hm2].
  pose proof (NilZero.isi _ Hn1 Hn2) as In.
  pose proof (NilZero.isi _ Hm1 Hm2) as Im.
  rewrite H in In. rewrite In in Im. injection Im as Im.
  rewrite <- (DecimalZ.of_to n), <- (DecimalZ.of_to m). by rewrite Im.
Qed.

(** X1: nodes with different numbers never share a certificate path or a
    key path. *)
Theorem tls_paths_differ_between_numbers bp (c1 c2 : DockerConfig) :
  number c1 ≠ number c2 →
  tls_certificate_path bp c1 ≠ tls_certificate_path bp c2 ∧
  tls_key_path bp c1 ≠ tls_key_path bp c2.
Proof.
  intros Hne. unfold tls_certificate_path, tls_key_path.
  split; intros H; apply Hne, str_int_inj.
  - apply (inj (String.app bp)), (inj (String.app "/node-")) in H.
    by apply append_inv_tail in H.
  - apply (inj (String.app bp)), (inj (String.app "/node-")) in H.
    by apply append_inv_tail in H.
Qed.

Lemma tls_paths_differ_between_numbers_witness :
  tls_certificate_path example_bootstrap_path
    (default_instance amb_plain example_client "K") ≠
  tls_certificate_path example_bootstrap_path (scenario_instance amb_plain) ∧
  tls_key_path example_bootstrap_path
    (default_instance amb_plain example_client "K") ≠
  tls_key_path example_bootstrap_path (scenario_instance amb_plain).
Proof.
  apply (tls_paths_differ_between_numbers example_bootstrap_path
           (default_instance amb_plain example_client "K")
           (scenario_instance amb_plain)).
  simpl. discriminate.
Defined.

(** X2: a certificate path is never a key path, whichever two nodes the
    paths are taken from. *)
Theorem certificate_path_is_no_key_path bp (c1 c2 : DockerConfig) :
  tls_certificate_path bp c1 ≠ tls_key_path bp c2.
Proof.
  unfold tls_certificate_path, tls_key_path. intros H.
  apply (inj (String.app bp)), (inj (String.app "/node-")) in H.
  apply (f_equal list_ascii_of_string) in H. rewrite !chars_app in H.
  apply (f_equal (λ l, take 8 (rev l))) in H. simpl in H.
  rewrite !rev_app_distr in H. simpl in H. discriminate H.
Qed.

(** ** More on the command options *)

(** X3: the eight base flags are in the options of every instance, with
    the values of the literal: none of the four optional flags ever
    replaces one.  The node flags and the API flags name the same
    certificate and the same key. *)
Theorem base_flags_always_present bp (c : DockerConfig) host :
  node_command_options bp c host !! "--server-default-timeout"
    = Some "10second" ∧
  node_command_options bp c host !! "--server-host" = Some host ∧
  node_command_options bp c host !! "--grpc-socket"
    = Some "/root/.casperlabs/sockets/.casper-node.sock" ∧
  node_command_options bp c host !! "--metrics-prometheus"
    = Some EmptyString ∧
  node_command_options bp c host !! "--tls-certificate"
    = Some (tls_certificate_path bp c) ∧
  node_command_options bp c host !! "--tls-api-certificate"
    = Some (tls_certificate_path bp c) ∧
  node_command_options bp c host !! "--tls-key" = Some (tls_key_path bp c) ∧
  node_command_options bp c host !! "--tls-api-key"
    = Some (tls_key_path bp c).
Proof. options_cases c; repeat split; vm_compute; reflexivity. Qed.

(** X4: the number of options is eight plus one for each optional flag
    whose condition holds, so between eight and twelve. *)
Theorem options_size bp (c : DockerConfig) host :
  size (node_command_options bp c host) =
    (8 + Nat.b2n (negb (is_read_only c)) + Nat.b2n (grpc_encryption c)
     + Nat.b2n (truthy (bootstrap_address c))
     + Nat.b2n (truthy (node_public_key c)))%nat ∧
  (8 ≤ size (node_command_options bp c host) ≤ 12)%nat.
Proof. options_cases c; split; vm_compute; (reflexivity || lia). Qed.

Lemma dom_insert_within (X : gset string) (k v : string)
  (m : gmap string string) :
  k ∈ X → dom m ⊆ X → dom (<[k := v]> m) ⊆ X.
Proof.
  intros Hk Hm x. rewrite dom_insert_L, elem_of_union, elem_of_singleton.
  intros [->|Hx]; [exact Hk | by apply Hm].
Qed.

(** X5: the options never contain a flag outside the twelve known ones. *)
Theorem options_only_known_flags bp (c : DockerConfig) host :
  dom (node_command_options bp c host) ⊆ list_to_set known_flags.
Proof.
  assert (dom (base_options bp c host) ⊆ list_to_set known_flags) as Hb.
  { unfold base_options.
    repeat (apply dom_insert_within; [known_flag|]).
    rewrite dom_empty_L. apply empty_subseteq. }
  unfold node_command_options. revert Hb.
  generalize (base_options bp c host). intros m Hm.
  options_cases c;
    cbn [is_read_only grpc_encryption bootstrap_address node_public_key
           negb truthy];
    repeat (apply dom_insert_within; [known_flag|]); exact Hm.
Qed.

Lemma insert_host_base bp (c : DockerConfig) host host' :
  <["--server-host" := host]> (base_options bp c host')
  = base_options bp c host.
Proof.
  unfold base_options.
  repeat (rewrite (insert_insert_ne _ "--server-host"); [|done]).
  by rewrite insert_insert_eq.
Qed.

(** X6: the host argument reaches the server-host flag and nothing else:
    the options for one host are the options for any other host with
    that one entry replaced. *)
Theorem host_only_sets_server_host bp (c : DockerConfig) host host' :
  node_command_options bp c host =
  <["--server-host" := host]> (node_command_options bp c host').
Proof.
  unfold node_command_options.
  rewrite <- (insert_host_base bp c host host').
  generalize (base_options bp c host'). intros m.
  options_cases c;
    cbn [is_read_only grpc_encryption bootstrap_address node_public_key
           negb truthy];
    repeat (rewrite (insert_insert_ne _ "--server-host"); [|done]);
    reflexivity.
Qed.

(** X7: the options are a function of the number, the two keys, the
    bootstrap address, [grpc_encryption] and [is_read_only]: instances
    that agree on these six fields have the same options, whatever their
    docker client, environment, network, random string, limits, role
    flags, motes, socket volume and account are. *)
Theorem options_depend_on_six_fields bp (c1 c2 : DockerConfig) host :
  same_option_fields c1 c2 →
  node_command_options bp c1 host = node_command_options bp c2 host.
Proof.
  intros (Hn & Hk & Hp & Hb & Hg & Hr).
  unfold node_command_options, base_options, tls_certificate_path,
    tls_key_path. by rewrite Hn, Hk, Hp, Hb, Hg, Hr.
Qed.

Lemma options_depend_on_six_fields_witness :
  node_command_options example_bootstrap_path (scenario_instance amb_plain)
    "10.0.0.9" =
  node_command_options example_bootstrap_path scenario_instance_elsewhere
    "10.0.0.9".
Proof.
  apply (options_depend_on_six_fields example_bootstrap_path
           (scenario_instance amb_plain) scenario_instance_elsewhere
           "10.0.0.9").
  repeat split.
Defined.

(** ** More on construction *)

(** X8: after construction [rand_str] is never [None]: a string passed by
    the caller is kept as it is, the empty string too, and otherwise it
    is what [random_string(5)] returned. *)
Theorem rand_str_after_construction amb a st cfg st' :
  __init__ amb a st = inr (cfg, st') →
  rand_str cfg =
    Some (default (random_string amb 5) (default None (arg_rand_str a))).
Proof.
  rewrite init_eq. unfold bind_fields.
  destruct (arg_docker_client a), (arg_node_private_key a); try done.
  by intros [= <- _].
Qed.

Lemma rand_str_after_construction_witness :
  ∃ cfg st',
    __init__ amb_plain (own_env_empty_suffix_args (fst own_empty_env))
      (snd own_empty_env) = inr (cfg, st') ∧
    rand_str cfg = Some EmptyString.
Proof.
  eexists _, _. split; [exact (init_eq _ _ _)|].
  apply (rand_str_after_construction amb_plain
           (own_env_empty_suffix_args (fst own_empty_env))
           (snd own_empty_env) _ _ (init_eq _ _ _)).
Defined.

(** X9: a construction writes at most one entry: [_JAVA_OPTIONS] of the
    instance's own environment dictionary.  Every other entry of that
    dictionary and every other dictionary are as before, and when the
    override is not set the store is left as it was. *)
Theorem construction_frame amb a st cfg st' :
  __init__ amb a st = inr (cfg, st') →
  (∀ l k, node_env cfg ≠ Some l ∨ k ≠ "_JAVA_OPTIONS" →
          deref st' l !! k = deref st l !! k) ∧
  (environ amb !! "_JAVA_OPTIONS" = None → st' = st).
Proof.
  rewrite init_eq. destruct (bind_fields a) as [|self]; [done|].
  intros [= <- <-]. unfold post_init_store. simpl.
  destruct (environ amb !! "_JAVA_OPTIONS") as [v|]; [|done].
  split; [|done]. intros l k [Hl|Hk].
  - rewrite deref_setitem_ne; [done|]. congruence.
  - destruct (decide (default DEFAULT_NODE_ENV (node_env self) = l)) as [<-|?].
    + rewrite deref_setitem_eq. by rewrite lookup_insert_ne.
    + by rewrite deref_setitem_ne.
Qed.

Lemma construction_frame_witness :
  deref (post_init_store amb_java
           (default_instance amb_java example_client "PRIVKEY")
           (snd own_java_env)) (fst own_java_env) !! "_JAVA_OPTIONS"
  = deref (snd own_java_env) (fst own_java_env) !! "_JAVA_OPTIONS".
Proof.
  refine (proj1 (construction_frame amb_java
                   (required_only example_client "PRIVKEY") (snd own_java_env)
                   (default_instance amb_java example_client "PRIVKEY")
                   (post_init_store amb_java
                      (default_instance amb_java example_client "PRIVKEY")
                      (snd own_java_env)) _)
            (fst own_java_env) "_JAVA_OPTIONS" _).
  - apply init_required_only.
  - left. vm_compute. discriminate.
Defined.

(** X10: when the override is set and the caller passed a dictionary, the
    instance holds that very dictionary and the dictionary itself is
    updated in place: it is what it was with [_JAVA_OPTIONS] set to the
    override, replacing any value it had there. *)
Theorem caller_environment_updated_in_place amb a st cfg st' l v :
  default None (arg_node_env a) = Some l →
  environ amb !! "_JAVA_OPTIONS" = Some v →
  __init__ amb a st = inr (cfg, st') →
  node_env cfg = Some l ∧
  deref st' l = <["_JAVA_OPTIONS" := v]> (deref st l).
Proof.
  intros Hl Hv. rewrite init_eq. unfold bind_fields.
  destruct (arg_docker_client a), (arg_node_private_key a); try done.
  intros [= <- <-]. unfold post_init_store. simpl. rewrite Hl, Hv. simpl.
  split; [done|]. apply deref_setitem_eq.
Qed.

Lemma caller_environment_updated_in_place_witness :
  deref (snd own_java_env) (fst own_java_env) !! "_JAVA_OPTIONS"
    = Some "-Xms1g" ∧
  ∃ cfg st',
    __init__ amb_java (own_env_args (fst own_java_env)) (snd own_java_env)
      = inr (cfg, st') ∧
    node_env cfg = Some (fst own_java_env) ∧
    deref st' (fst own_java_env) =
      <["_JAVA_OPTIONS" := "-Xmx512m"]>
        (deref (snd own_java_env) (fst own_java_env)).
Proof.
  split; [vm_compute; reflexivity|].
  eexists _, _. split; [exact (init_eq _ _ _)|].
  apply (caller_environment_updated_in_place amb_java
           (own_env_args (fst own_java_env)) (snd own_java_env) _ _
           (fst own_java_env) "-Xmx512m").
  - reflexivity.
  - vm_compute; reflexivity.
  - exact (init_eq _ _ _).
Defined.

(** X11: the first instance constructed after import without an
    environment of the caller's has exactly the four baseline entries,
    and the override when it is set.  Its log level is the one
    [os.environ] had at import (or INFO): [CL_LOG_LEVEL] at construction
    time is not read. *)
Theorem first_default_environment env0 amb a cfg st' :
  default None (arg_node_env a) = None →
  __init__ amb a (import_module env0) = inr (cfg, st') →
  environment cfg st' =
    match environ amb !! "_JAVA_OPTIONS" with
    | Some v => <["_JAVA_OPTIONS" := v]> (DEFAULT_NODE_ENV_display env0)
    | None => DEFAULT_NODE_ENV_display env0
    end ∧
  environment cfg st' !! "CL_LOG_LEVEL"
    = Some (default "INFO" (env0 !! "CL_LOG_LEVEL")).
Proof.
  intros Ha Hi.
  assert (environment cfg st' =
    match environ amb !! "_JAVA_OPTIONS" with
    | Some v => <["_JAVA_OPTIONS" := v]> (DEFAULT_NODE_ENV_display env0)
    | None => DEFAULT_NODE_ENV_display env0
    end) as E.
  { unfold environment.
    rewrite (default_node_env_is_shared _ _ _ _ _ Ha Hi).
    rewrite init_eq in Hi. destruct (bind_fields a) as [|self] eqn:Hb; [done|].
    injection Hi as <- <-. unfold post_init_store.
    assert (node_env self = None) as ->.
    { unfold bind_fields in Hb.
      destruct (arg_docker_client a), (arg_node_private_key a); try done.
      by injection Hb as <-. }
    simpl. destruct (environ amb !! "_JAVA_OPTIONS").
    - rewrite deref_setitem_eq. unfold deref, import_module.
      by rewrite lookup_total_singleton_eq.
    - unfold deref, import_module. by rewrite lookup_total_singleton_eq. }
  split; [exact E|]. rewrite E. unfold DEFAULT_NODE_ENV_display.
  destruct (environ amb !! "_JAVA_OPTIONS"); by simplify_map_eq.
Qed.

Lemma first_default_environment_witness :
  environ amb_debug !! "CL_LOG_LEVEL" = Some "DEBUG" ∧
  environment (default_instance amb_debug example_client "PRIVKEY")
    (post_init_store amb_debug
       (default_instance amb_debug example_client "PRIVKEY")
       (import_module ∅)) !! "CL_LOG_LEVEL" = Some "INFO".
Proof.
  split; [vm_compute; reflexivity|].
  refine (proj2 (first_default_environment ∅ amb_debug
                   (required_only example_client "PRIVKEY")
                   (default_instance amb_debug example_client "PRIVKEY")
                   (post_init_store amb_debug
                      (default_instance amb_debug example_client "PRIVKEY")
                      (import_module ∅)) _ _)).
  - reflexivity.
  - apply init_required_only.
Defined.

(** Over the reachable stores [DEFAULT_NODE_ENV] differs from its display
    in the [_JAVA_OPTIONS] entry at most. *)
Lemma reachable_default_entries st :
  reachable st →
  ∃ env0, ∀ k, k ≠ "_JAVA_OPTIONS" →
    deref st DEFAULT_NODE_ENV !! k = DEFAULT_NODE_ENV_display env0 !! k.
Proof.
  induction 1 as [env0|st d Hr [env0 IH]|st amb a cfg st' _ [env0 IH] Hi].
  - exists env0. intros k _. unfold deref, import_module.
    by rewrite lookup_total_singleton_eq.
  - exists env0. intros k Hk. rewrite <- (IH k Hk).
    unfold dict_new, deref. simpl. rewrite lookup_total_insert_ne; [done|].
    intros Ef. apply (is_fresh (dom st)). rewrite Ef.
    by apply reachable_default_allocated.
  - exists env0. intros k Hk. rewrite <- (IH k Hk).
    rewrite init_eq in Hi. destruct (bind_fields a) as [|self]; [done|].
    injection Hi as _ <-. unfold post_init_store.
    destruct (environ amb !! "_JAVA_OPTIONS") as [v|]; [|done].
    destruct (decide (default DEFAULT_NODE_ENV (node_env self)
                      = DEFAULT_NODE_ENV)) as [->|Hne].
    + rewrite deref_setitem_eq. by rewrite lookup_insert_ne.
    + by rewrite deref_setitem_ne.
Qed.

(** X12: however many instances are constructed and dictionaries built,
    [DEFAULT_NODE_ENV] keeps its three fixed values and a log level, and
    never holds a key besides the four baseline ones and
    [_JAVA_OPTIONS]. *)
Theorem default_node_env_invariant st :
  reachable st →
  deref st DEFAULT_NODE_ENV !! "RUST_BACKTRACE" = Some "full" ∧
  deref st DEFAULT_NODE_ENV !! "CL_SERVER_NO_UPNP" = Some "true" ∧
  deref st DEFAULT_NODE_ENV !! "CL_VERSION" = Some "test" ∧
  is_Some (deref st DEFAULT_NODE_ENV !! "CL_LOG_LEVEL") ∧
  ∀ k, is_Some (deref st DEFAULT_NODE_ENV !! k) →
       k ∈ ["RUST_BACKTRACE"; "CL_LOG_LEVEL"; "CL_SERVER_NO_UPNP";
            "CL_VERSION"; "_JAVA_OPTIONS"].
Proof.
  intros Hr. destruct (reachable_default_entries st Hr) as [env0 H].
  rewrite !H by done. unfold DEFAULT_NODE_ENV_display.
  repeat split; try by simplify_map_eq.
  intros k Hk. destruct (decide (k = "_JAVA_OPTIONS")) as [->|Hne].
  - set_solver.
  - rewrite (H k Hne) in Hk. unfold DEFAULT_NODE_ENV_display in Hk.
    repeat (apply lookup_insert_is_Some in Hk as [<-|[_ Hk]]; [set_solver|]).
    rewrite lookup_empty in Hk. by destruct Hk.
Qed.

Lemma default_node_env_invariant_witness :
  deref (post_init_store amb_java
           (default_instance amb_java example_client "PRIVKEY")
           (snd own_java_env)) DEFAULT_NODE_ENV !! "CL_VERSION" = Some "test".
Proof.
  refine (proj1 (proj2 (proj2 (default_node_env_invariant
           (post_init_store amb_java
              (default_instance amb_java example_client "PRIVKEY")
              (snd own_java_env)) _)))).
  apply (reachable_init (snd own_java_env) amb_java
           (required_only example_client "PRIVKEY")
           (default_instance amb_java example_client "PRIVKEY")).
  - apply (reachable_dict_new (import_module ∅)). apply reachable_import.
  - apply init_required_only.
Defined.

(** X13: [__post_init__] is idempotent: run again on the instance and the
    store it returned, under the same ambient values, it returns them
    unchanged. *)
Theorem post_init_idempotent amb self st self' st' :
  __post_init__ amb self st = inr (self', st') →
  __post_init__ amb self' st' = inr (self', st').
Proof.
  rewrite !post_init_eq. intros [= <- <-].
  assert (post_init_instance amb (post_init_instance amb self)
          = post_init_instance amb self) as -> by (by destruct self).
  assert (post_init_store amb (post_init_instance amb self)
            (post_init_store amb self st)
          = post_init_store amb self st) as ->; [|done].
  unfold post_init_store. simpl.
  destruct (environ amb !! "_JAVA_OPTIONS") as [v|]; [|done].
  unfold dict_setitem at 1. rewrite deref_setitem_eq.
  rewrite insert_insert_eq. unfold dict_setitem.
  by rewrite insert_insert_eq.
Qed.

Lemma post_init_idempotent_witness :
  __post_init__ amb_java
    (post_init_instance amb_java (scenario_instance amb_plain))
    (post_init_store amb_java (scenario_instance amb_plain) (import_module ∅))
  = inr (post_init_instance amb_java (scenario_instance amb_plain),
         post_init_store amb_java (scenario_instance amb_plain)
           (import_module ∅)).
Proof.
  apply (post_init_idempotent amb_java (scenario_instance amb_plain)
           (import_module ∅)).
  apply post_init_eq.
Defined.

(** ** The certificate on the host *)

Lemma digits_no_separator (d : Decimal.uint) :
  "/"%char ∉ list_ascii_of_string (NilEmpty.string_of_uint d).
Proof.
  induction d; simpl; [apply not_elem_of_nil|..];
    (apply not_elem_of_cons; split; [discriminate | assumption]).
Qed.

Lemma str_int_no_separator (n : Z) :
  "/"%char ∉ list_ascii_of_string (str_int n).
Proof.
  assert (∀ d, "/"%char ∉ list_ascii_of_string (NilZero.string_of_uint d))
    as Hu.
  { intros d. destruct d; try apply digits_no_separator.
    simpl. apply not_elem_of_cons. split; [discriminate|apply not_elem_of_nil]. }
  unfold str_int. destruct (Z.to_int n) as [d|d]; simpl; [apply Hu|].
  apply not_elem_of_cons. split; [discriminate|apply Hu].
Qed.

(** X14: when the testing root resolves, the certificate on the host is
    [resources/bootstrap_certificate/<file>] under that root, where
    [<file>] is one path part (it has no separator) and is the very file
    name of the certificate path in the container; when the testing root
    fails, that failure is the result. *)
Theorem local_certificate_path_file_name (E : Type) (root : Path) bp
  (c : DockerConfig) :
  (∀ e : E, tls_certificate_local_path E (inl e) c = inl e) ∧
  ∃ file,
    tls_certificate_local_path E (inr root) c
      = inr (root ++ ["resources"; "bootstrap_certificate"; file])%list ∧
    tls_certificate_path bp c = bp ++ "/" ++ file ∧
    "/"%char ∉ list_ascii_of_string file.
Proof.
  split; [done|].
  exists ("node-" ++ str_int (number c) ++ ".certificate.pem").
  split; [|split].
  - unfold tls_certificate_local_path, path_div.
    by rewrite <- !(assoc_L (++)%list).
  - reflexivity.
  - rewrite !chars_app, !elem_of_app.
    intros [H|[H|H]].
    + repeat (apply elem_of_cons in H as [H|H]; [discriminate H|]).
      by apply elem_of_nil in H.
    + by apply str_int_no_separator in H.
    + repeat (apply elem_of_cons in H as [H|H]; [discriminate H|]).
      by apply elem_of_nil in H.
Qed.

(** ** Read-only nodes and shared environments *)

Lemma base_options_no_private_key bp (c : DockerConfig) host :
  base_options bp c host !! "--casper-validator-private-key" = None.
Proof. vm_compute. reflexivity. Qed.

(** X15: a read-only node gets the options of its validating twin less
    the validator private-key flag, and nothing else changes. *)
Theorem read_only_drops_private_key_only bp (c1 c2 : DockerConfig) host :
  read_only_twin c1 c2 →
  node_command_options bp c1 host =
  delete "--casper-validator-private-key" (node_command_options bp c2 host).
Proof.
  intros (Hn & Hp & Hb & Hg & Hr1 & Hr2).
  unfold node_command_options.
  rewrite Hr1, Hr2, Hp, Hb, Hg.
  assert (base_options bp c1 host = base_options bp c2 host) as ->.
  { unfold base_options, tls_certificate_path, tls_key_path. by rewrite Hn. }
  pose proof (base_options_no_private_key bp c2 host) as Hnone.
  revert Hnone. generalize (base_options bp c2 host). intros m Hm.
  destruct (grpc_encryption c2), (bootstrap_address c2) as [[|? ?]|],
    (node_public_key c2) as [[|? ?]|];
    cbn [negb truthy];
    repeat (rewrite (delete_insert_ne _ "--casper-validator-private-key");
            [|done]);
    rewrite delete_insert_eq; by rewrite delete_id.
Qed.

Lemma read_only_drops_private_key_only_witness :
  node_command_options example_bootstrap_path
    (scenario_instance_read_only amb_plain) "10.0.0.9" =
  delete "--casper-validator-private-key"
    (node_command_options example_bootstrap_path
       (scenario_instance amb_plain) "10.0.0.9").
Proof.
  apply (read_only_drops_private_key_only example_bootstrap_path
           (scenario_instance_read_only amb_plain)
           (scenario_instance amb_plain) "10.0.0.9").
  repeat split.
Defined.

(** X16: any two instances constructed without an environment of the
    caller's, at whatever times, read one and the same environment in
    every store, and an entry written through either is read through the
    other. *)
Theorem default_instances_share_environment
  amb1 a1 st1 cfg1 st1' amb2 a2 st2 cfg2 st2' :
  default None (arg_node_env a1) = None →
  default None (arg_node_env a2) = None →
  __init__ amb1 a1 st1 = inr (cfg1, st1') →
  __init__ amb2 a2 st2 = inr (cfg2, st2') →
  (∀ st, environment cfg1 st = environment cfg2 st) ∧
  (∀ st k v, environment cfg1 (node_env_setitem cfg2 k v st) !! k = Some v).
Proof.
  intros H1 H2 Hi1 Hi2.
  unfold environment, node_env_setitem.
  rewrite (default_node_env_is_shared _ _ _ _ _ H1 Hi1).
  rewrite (default_node_env_is_shared _ _ _ _ _ H2 Hi2).
  split; [done|]. intros st k v.
  rewrite deref_setitem_eq. apply lookup_insert_eq.
Qed.

Lemma default_instances_share_environment_witness :
  environment (default_instance amb_plain example_client "K1")
    (node_env_setitem (default_instance amb_java example_client "K2")
       "CL_LOG_LEVEL" "DEBUG" (import_module ∅))
  !! "CL_LOG_LEVEL" = Some "DEBUG".
Proof.
  refine (proj2 (default_instances_share_environment
            amb_plain (required_only example_client "K1") (import_module ∅)
            (default_instance amb_plain example_client "K1")
            (post_init_store amb_plain
               (default_instance amb_plain example_client "K1")
               (import_module ∅))
            amb_java (required_only example_client "K2") (import_module ∅)
            (default_instance amb_java example_client "K2")
            (post_init_store amb_java
               (default_instance amb_java example_client "K2")
               (import_module ∅)) _ _ _ _)
            (import_module ∅) "CL_LOG_LEVEL" "DEBUG").
  - reflexivity.
  - reflexivity.
  - apply init_required_only.
  - apply init_required_only.
Defined.
